(** * json_to_csv_app: flattening of JSON documents and their tabularization

    Shallow embedding of [flatten_json] and [json_to_csv] from
    [json_to_csv_app.py], with the properties the specification states
    about them.

    Python values of the shapes [json.loads] produces are the inductive
    type [json]; a Python [dict] is an insertion-ordered association list
    whose keys are pairwise distinct; the [pandas] table is a record of
    column names and rows. *)

From Stdlib Require Import String Ascii List ZArith Bool Arith Lia.
From Stdlib Require Import DecimalString DecimalNat.
Import ListNotations.

Local Open Scope string_scope.
Local Open Scope list_scope.

(** ** Python values *)

(** A Python number as [json.loads] builds it: an unbounded [int], or a
    [float] kept as its binary64 bit pattern (the program never computes
    with numbers, it only moves them around). *)
Inductive number : Type :=
| PyInt (n : Z)
| PyFloat (bits : Z).

Unset Elimination Schemes.

(** The values [json.loads] returns: [None], [bool], a number, [str],
    [list] and [dict] (string keys, insertion order). *)
Inductive json : Type :=
| JNull
| JBool (b : bool)
| JNum (n : number)
| JStr (s : string)
| JArr (l : list json)
| JObj (o : list (string * json)).

Set Elimination Schemes.

(** [isinstance(v, dict)] and [isinstance(v, list)]. *)
Definition is_dict (v : json) : bool :=
  match v with JObj _ => true | _ => false end.

Definition is_list (v : json) : bool :=
  match v with JArr _ => true | _ => false end.

(** A scalar is a value that is neither a [dict] nor a [list]. *)
Definition is_scalar (v : json) : bool :=
  match v with JObj _ | JArr _ => false | _ => true end.

(** ** Python dictionaries

    [dict V] lists the items of a Python [dict] in insertion order. *)
Module PyDict.

Definition dict (V : Type) : Type := list (string * V).

Definition keys {V} (d : dict V) : list string := map fst d.

(** [d.get(k)]. *)
Fixpoint dict_get {V} (k : string) (d : dict V) : option V :=
  match d with
  | [] => None
  | (k', v') :: d' => if String.eqb k' k then Some v' else dict_get k d'
  end.

(** [d[k] = v]: an existing key keeps its position and takes the new
    value, a new key goes to the end. *)
Fixpoint dict_set {V} (k : string) (v : V) (d : dict V) : dict V :=
  match d with
  | [] => [(k, v)]
  | (k', v') :: d' =>
      if String.eqb k' k then (k', v) :: d' else (k', v') :: dict_set k v d'
  end.

(** [d.update(items)]: the items are assigned one after the other. *)
Definition dict_update {V} (d : dict V) (items : list (string * V)) : dict V :=
  fold_left (fun acc kv => dict_set (fst kv) (snd kv) acc) items d.

(** [dict(items)]. *)
Definition dict_of_items {V} (items : list (string * V)) : dict V :=
  dict_update [] items.

(** The invariant of a Python [dict]: no key occurs twice. *)
Definition wf_dict {V} (d : dict V) : Prop := NoDup (keys d).

End PyDict.
Import PyDict.

(** A value built by [json.loads]: every object in it is a Python
    [dict], so its keys are pairwise distinct. *)
Fixpoint wf_json (v : json) : Prop :=
  match v with
  | JArr l => (fix all (l : list json) : Prop :=
                 match l with
                 | [] => True
                 | x :: l' => wf_json x /\ all l'
                 end) l
  | JObj o => NoDup (map fst o) /\
              (fix all (o : list (string * json)) : Prop :=
                 match o with
                 | [] => True
                 | kv :: o' => wf_json (snd kv) /\ all o'
                 end) o
  | _ => True
  end.

(** ** flatten_json *)

(** [str(i)] for a list index. *)
Definition str (i : nat) : string := NilEmpty.string_of_uint (Nat.to_uint i).

(** Truth value of a [str] used as a condition: non-empty. *)
Definition truthy (s : string) : bool :=
  match s with EmptyString => false | _ => true end.

(** Line 16: the key of field [k] under [parent_key]. *)
Definition new_key (parent_key sep k : string) : string :=
  if truthy parent_key then (parent_key ++ sep ++ k)%string else k.

(** Lines 21-24 and 29-32, the body of the loop over a list: a [dict]
    element contributes the items of its own flattening under [key], any
    other element is appended as it is. *)
Definition elem_items (recur : json -> string -> dict json)
    (key : string) (item : json) : list (string * json) :=
  if is_dict item then recur item key else [(key, item)].

(** The loop [for i, item in enumerate(l)], started at index [i]; the
    key of element [i] is [key_at i]. *)
Fixpoint extend_elems (recur : json -> string -> dict json)
    (key_at : nat -> string) (l : list json) (i : nat) : list (string * json) :=
  match l with
  | [] => []
  | item :: l' =>
      elem_items recur (key_at i) item ++ extend_elems recur key_at l' (S i)
  end.

(** Lines 16-26, the body of the loop over the items of a [dict]. *)
Definition field_items (recur : json -> string -> dict json)
    (parent_key sep k : string) (v : json) : list (string * json) :=
  let new_key := new_key parent_key sep k in
  match v with
  | JObj _ => recur v new_key
  | JArr l => extend_elems recur (fun i => (new_key ++ sep ++ str i)%string) l 0
  | _ => [(new_key, v)]
  end.

(** The loop [for k, v in data.items()]. *)
Fixpoint extend_fields (recur : json -> string -> dict json)
    (parent_key sep : string) (o : list (string * json)) : list (string * json) :=
  match o with
  | [] => []
  | (k, v) :: o' =>
      field_items recur parent_key sep k v ++ extend_fields recur parent_key sep o'
  end.

(** [flatten_json(data, parent_key, sep)]: [items] is built by the branch
    for the type of [data], and the result is [dict(items)]. *)
Fixpoint flatten_json (data : json) (parent_key sep : string) {struct data}
  : dict json :=
  dict_of_items
    match data with
    | JObj o =>
        extend_fields (fun v key => flatten_json v key sep) parent_key sep o
    | JArr l =>
        extend_elems (fun item key => flatten_json item key sep)
          (fun i => (parent_key ++ sep ++ str i)%string) l 0
    | _ => [(parent_key, data)]
    end.

(** The leaves of [data] in traversal order, each under its path key,
    with nothing merged: the same two loops, the recursive call returning
    the entries of the sub-document instead of a [dict] of them. *)
Fixpoint leaf_entries (data : json) (parent_key sep : string) {struct data}
  : list (string * json) :=
  match data with
  | JObj o =>
      extend_fields (fun v key => leaf_entries v key sep) parent_key sep o
  | JArr l =>
      extend_elems (fun item key => leaf_entries item key sep)
        (fun i => (parent_key ++ sep ++ str i)%string) l 0
  | _ => [(parent_key, data)]
  end.

(** Two item lists that every dictionary merges to the same result. *)
Definition same_merge (items items' : list (string * json)) : Prop :=
  forall d, dict_update d items = dict_update d items'.

(** Two recursive calls agree on a value and, when it is a [list], on
    each of its elements. *)
Definition agree_below (r r' : json -> string -> dict json) (v : json) : Prop :=
  (forall key, same_merge (r v key) (r' v key)) /\
  (forall l, v = JArr l ->
     Forall (fun item => forall key, same_merge (r item key) (r' item key)) l).

(** No [list] sits directly inside a [list] anywhere in the document. *)
Fixpoint no_list_in_list (v : json) : Prop :=
  match v with
  | JArr l => (fix all (l : list json) : Prop :=
                 match l with
                 | [] => True
                 | x :: l' => is_list x = false /\ no_list_in_list x /\ all l'
                 end) l
  | JObj o => (fix all (o : list (string * json)) : Prop :=
                 match o with
                 | [] => True
                 | kv :: o' => no_list_in_list (snd kv) /\ all o'
                 end) o
  | _ => True
  end.

(** ** The table *)

(** A cell holds a value or is missing ([NaN]). *)
Inductive cell : Type :=
| NaN
| Val (v : json).

(** What the program reads of a [pandas.DataFrame]: [df.columns] and the
    rows in order; [len(df)] is the number of rows. *)
Record DataFrame : Type := mkDataFrame {
  columns : list string;
  rows : list (list cell)
}.

Definition len (df : DataFrame) : nat := length (rows df).

(** The column list grows by the keys not seen before. *)
Definition add_column (cols : list string) (k : string) : list string :=
  if existsb (String.eqb k) cols then cols else cols ++ [k].

Definition union_columns (records : list (dict json)) : list string :=
  fold_left add_column (concat (map keys records)) [].

Definition cell_of (record : dict json) (column : string) : cell :=
  match dict_get column record with
  | Some v => Val v
  | None => NaN
  end.

(** Modelled from the spec: [pandas.DataFrame] applied to a list of
    [dict]s is a library call whose code is not in the repository; the
    spec gives it as "column set = ordered union of all record keys
    across all records; one row per record, missing keys rendered
    empty". *)
Definition DataFrame_of_records (records : list (dict json)) : DataFrame :=
  let cols := union_columns records in
  {| columns := cols;
     rows := map (fun r => map (cell_of r) cols) records |}.

(** Modelled from the spec: [pandas.DataFrame({"value": [data]})], "a
    single column named value and a single row containing that scalar". *)
Definition DataFrame_of_column (name : string) (values : list json) : DataFrame :=
  {| columns := [name];
     rows := map (fun v => [Val v]) values |}.

(** Modelled from the spec: the record [pandas.json_normalize] makes of
    one object, "nested objects become dotted-path columns, nested arrays
    become columns holding the raw sub-structure". *)
Fixpoint normalise_json (data : json) (key_string : string) {struct data}
  : list (string * json) :=
  match data with
  | JObj o =>
      (fix for_items (o : list (string * json)) : list (string * json) :=
         match o with
         | [] => []
         | (k, v) :: o' =>
             normalise_json v
               (if truthy key_string then (key_string ++ "." ++ k)%string else k)
               ++ for_items o'
         end) o
  | _ => [(key_string, data)]
  end.

(** The items of a [dict] value. *)
Definition fields (v : json) : dict json :=
  match v with JObj o => o | _ => [] end.

(** ** Exceptions *)

(** The exceptions the [try] block tells apart, each with [str(e)]. *)
Inductive exn : Type :=
| JSONDecodeError (msg : string)
| OtherException (msg : string).

Inductive exc (A : Type) : Type :=
| Ret (a : A)
| Raise (e : exn).

Arguments Ret {A} a.
Arguments Raise {A} e.

Definition bind {A B} (m : exc A) (f : A -> exc B) : exc B :=
  match m with
  | Ret a => f a
  | Raise e => Raise e
  end.

Notation "x <- m ;; f" := (bind m (fun x => f))
  (at level 61, m at next level, right associativity).

(** The library calls whose behaviour the program takes as given:
    [json.loads], and [pandas.json_normalize] and [pandas.DataFrame] on
    lists that are not lists of [dict]s. *)
Record Externals : Type := {
  json_loads : string -> exc json;
  json_normalize_other : list json -> exc DataFrame;
  DataFrame_other : list json -> exc DataFrame
}.

(** [pd.DataFrame(data)] for a list [data]. *)
Definition pd_DataFrame (env : Externals) (data : list json) : exc DataFrame :=
  if forallb is_dict data
  then Ret (DataFrame_of_records (map fields data))
  else DataFrame_other env data.

(** [pd.json_normalize(data)] for a list [data]. *)
Definition pd_json_normalize (env : Externals) (data : list json) : exc DataFrame :=
  if forallb is_dict data
  then Ret (DataFrame_of_records
              (map (fun r => dict_of_items (normalise_json r "")) data))
  else json_normalize_other env data.

(** [df.to_csv] writes a missing cell as [na_rep], the empty string; how
    a present value is formatted is left to the library. *)
Definition na_rep : string := "".

Definition csv_field (format : json -> string) (c : cell) : string :=
  match c with
  | NaN => na_rep
  | Val v => format v
  end.

(** ** json_to_csv *)

Inductive ErrorKind : Type :=
| InvalidJson
| ConversionError.

(** What a call of [json_to_csv] leaves behind: the table it returns, or
    the text given to [st.error] before it returns [None]. *)
Inductive outcome : Type :=
| Returned (df : DataFrame)
| Shown (kind : ErrorKind) (text : string).

(** Lines 44-47. *)
Definition parse (env : Externals) (json_data : json) : exc json :=
  match json_data with
  | JStr s => json_loads env s
  | _ => Ret json_data
  end.

(** Lines 54-58: the record of one array element. *)
Definition flattened_item (item : json) : json :=
  if is_dict item then JObj (flatten_json item "" "_")
  else JObj [("value", item)].

(** The body of the [try] block, lines 43-75. *)
Definition json_to_csv_try (env : Externals) (json_data : json)
    (flatten_nested normalize_data : bool) : exc DataFrame :=
  data <- parse env json_data ;;
  match data with
  | JArr l =>
      if flatten_nested then pd_DataFrame env (map flattened_item l)
      else if normalize_data then pd_json_normalize env l
           else pd_DataFrame env l
  | JObj _ =>
      if flatten_nested then pd_DataFrame env [JObj (flatten_json data "" "_")]
      else if normalize_data then pd_json_normalize env [data]
           else pd_DataFrame env [data]
  | _ => Ret (DataFrame_of_column "value" [data])
  end.

(** [json_to_csv(json_data, flatten_nested, normalize_data)] with its two
    [except] clauses, lines 77-82. *)
Definition json_to_csv (env : Externals) (json_data : json)
    (flatten_nested normalize_data : bool) : outcome :=
  match json_to_csv_try env json_data flatten_nested normalize_data with
  | Ret df => Returned df
  | Raise (JSONDecodeError msg) =>
      Shown InvalidJson ("Invalid JSON format: " ++ msg)%string
  | Raise (OtherException msg) =>
      Shown ConversionError ("Error converting JSON to CSV: " ++ msg)%string
  end.

(** ** Paths and sample documents *)

(** The leaf [L] sits at the path [p1.p2[i].p3] of [data]. *)
Definition at_path (data : json) (p1 p2 : string) (i : nat) (p3 : string)
    (L : json) : Prop :=
  exists o o2 l o3,
    data = JObj o /\ In (p1, JObj o2) o /\ In (p2, JArr l) o2 /\
    nth_error l i = Some (JObj o3) /\ In (p3, L) o3.

(** The key the spec gives that path: the four segments joined by [sep]. *)
Definition path_key (sep p1 p2 : string) (i : nat) (p3 : string) : string :=
  (p1 ++ sep ++ p2 ++ sep ++ str i ++ sep ++ p3)%string.

(** [{"user": {"tags": [{"name": "x"}, {"name": "y"}]}}]. *)
Definition nested_doc : json :=
  JObj [("user", JObj [("tags", JArr [JObj [("name", JStr "x")];
                                      JObj [("name", JStr "y")]])])].

(** [{"a": {"b": [{"c": 1}]}, "a_b_0_c": 2}]: two leaves whose paths
    give the same key under the separator [_]. *)
Definition colliding_doc : json :=
  JObj [("a", JObj [("b", JArr [JObj [("c", JNum (PyInt 1))]])]);
        ("a_b_0_c", JNum (PyInt 2))].

(** [{"a": [[{"b": 1}]]}]: a list directly inside a list. *)
Definition list_in_list_doc : json :=
  JObj [("a", JArr [JArr [JObj [("b", JNum (PyInt 1))]]])].

(** [{"name": "John", "age": 30, "city": "New York"}]. *)
Definition flat_doc : list (string * json) :=
  [("name", JStr "John"); ("age", JNum (PyInt 30)); ("city", JStr "New York")].

(** ** Column order and sample inputs of json_to_csv *)

(** The keys of [ks] not in [seen], each kept where it is first met. *)
Fixpoint first_seen (seen ks : list string) : list string :=
  match ks with
  | [] => []
  | k :: ks' =>
      if existsb (String.eqb k) seen then first_seen seen ks'
      else k :: first_seen (seen ++ [k]) ks'
  end.

(** A stand-in for the library calls: a parser that knows three texts
    and rejects every other with a diagnostic, and table constructors
    that raise on lists that are not lists of [dict]s. *)
Definition sample_env : Externals :=
  {| json_loads := fun s =>
       if String.eqb s "null" then Ret JNull
       else if String.eqb s "42" then Ret (JNum (PyInt 42))
       else if String.eqb s "[]" then Ret (JArr [])
       else Raise (JSONDecodeError "Expecting value: line 1 column 1 (char 0)");
     json_normalize_other := fun _ => Raise (OtherException "not a record");
     DataFrame_other := fun _ => Raise (OtherException "not a record") |}.

(** [[{"id": 1, "address": {"city": "NY"}}, {"id": 2, "address": {"city": "LA"}}]]. *)
Definition people : list json :=
  [JObj [("id", JNum (PyInt 1)); ("address", JObj [("city", JStr "NY")])];
   JObj [("id", JNum (PyInt 2)); ("address", JObj [("city", JStr "LA")])]].

(** ** Notions used by the further properties of flatten_json *)

(** An item with [pre] put in front of its key. *)
Definition prepend (pre : string) (kv : string * json) : string * json :=
  ((pre ++ fst kv)%string, snd kv).

(** The elements of [l], each under the key of its index, from [i] on. *)
Fixpoint indexed (key_at : nat -> string) (l : list json) (i : nat)
  : list (string * json) :=
  match l with
  | [] => []
  | item :: l' => (key_at i, item) :: indexed key_at l' (S i)
  end.

(** [k] starts with [p]. *)
Definition starts_with (p k : string) : Prop :=
  exists rest, k = (p ++ rest)%string.

(** [["a", 1, null]]. *)
Definition scalar_list : list json := [JStr "a"; JNum (PyInt 1); JNull].

(** ** Notions used by the further properties of json_to_csv *)

(** Lines 55-58: the record of one element of the array. *)
Definition item_record (item : json) : dict json :=
  if is_dict item then flatten_json item "" "_" else [("value", item)].

(** The record of a flat object: pairwise distinct keys, scalar values. *)
Definition flat_record (v : json) : Prop :=
  exists o, v = JObj o /\ wf_dict o /\
            Forall (fun kv => is_scalar (snd kv) = true) o.

(** A stand-in whose parser fails on every text with an exception that
    is not a decoding error. *)
Definition failing_env : Externals :=
  {| json_loads := fun _ =>
       Raise (OtherException "maximum recursion depth exceeded");
     json_normalize_other := fun _ => Raise (OtherException "not a record");
     DataFrame_other := fun _ => Raise (OtherException "not a record") |}.

(** [[{"id": 1}, "x"]]: an object and a scalar in one array. *)
Definition mixed_list : list json :=
  [JObj [("id", JNum (PyInt 1))]; JStr "x"].

(** ** main: the text that reaches the converter, and the preview *)

(** [a or b] for two [str]s: [a] when it is non-empty, else [b]. *)
Definition str_or (a b : string) : string := if truthy a then a else b.

(** What [main] keeps in [st.session_state]: the attribute [json_input],
    absent until it is first assigned. *)
Definition session_state : Type := option string.

(** Reading [st.session_state.json_input]; an absent attribute raises. *)
Definition session_json_input (session : session_state) : exc string :=
  match session with
  | Some text => Ret text
  | None => Raise (OtherException "st.session_state has no attribute json_input")
  end.

(** Lines 163-196, once [json_input] is read from the widgets: [button]
    is the value of [st.button("Load Example Data")] and [example_text]
    the text [json.dumps(example_data, indent=2)]. *)
Definition load_input (button : bool) (example_text json_input : string)
    (session : session_state) : exc session_state :=
  let session := if button then Some example_text else session in
  let session := match session with None => Some json_input | Some _ => session end in
  current <- session_json_input session ;;
  Ret (if negb (String.eqb current json_input) then Some json_input else session).

(** Lines 201-207: the text handed to [json_to_csv], [None] when the
    conversion is not run. *)
Definition conversion_input (json_input : string) (session : session_state)
  : exc (option string) :=
  current <- session_json_input session ;;
  if truthy (str_or current json_input)
  then current' <- session_json_input session ;;
       Ret (Some (str_or current' json_input))
  else Ret None.



(** * Properties *)

(** ** Dictionaries *)

Module PyDictFacts.

Section Facts.
Context {V : Type}.
Implicit Types (d items : dict V) (k : string) (v : V).

Lemma dict_get_set_eq k v d : dict_get k (dict_set k v d) = Some v.
Proof.
  induction d as [|[k' v'] d IH]; simpl.
  - now rewrite String.eqb_refl.
  - destruct (String.eqb k' k) eqn:E; simpl; rewrite E; auto.
Qed.

Lemma dict_get_set_neq k k' v d :
  k <> k' -> dict_get k (dict_set k' v d) = dict_get k d.
Proof.
  intros Hne. induction d as [|[a x] d IH]; simpl.
  - apply String.eqb_neq in Hne. rewrite String.eqb_sym. now rewrite Hne.
  - destruct (String.eqb a k') eqn:E; simpl.
    + apply String.eqb_eq in E; subst a.
      destruct (String.eqb k' k) eqn:E'; auto.
      apply String.eqb_eq in E'. congruence.
    + now rewrite IH.
Qed.

Lemma dict_set_fresh k v d :
  ~ In k (keys d) -> dict_set k v d = d ++ [(k, v)].
Proof.
  induction d as [|[a x] d IH]; simpl; intros Hn; auto.
  destruct (String.eqb a k) eqn:E.
  - apply String.eqb_eq in E. tauto.
  - f_equal. apply IH. tauto.
Qed.

Lemma keys_dict_set_in k v d :
  In k (keys d) -> keys (dict_set k v d) = keys d.
Proof.
  induction d as [|[a x] d IH]; simpl; intros Hin; [tauto|].
  destruct (String.eqb a k) eqn:E; simpl; auto.
  f_equal. apply IH. destruct Hin as [->|]; auto.
  rewrite String.eqb_refl in E. discriminate.
Qed.

Lemma in_keys_dict_set k k' v d :
  In k (keys (dict_set k' v d)) <-> k = k' \/ In k (keys d).
Proof.
  destruct (in_dec string_dec k' (keys d)) as [Hin|Hn].
  - rewrite keys_dict_set_in by assumption. intuition congruence.
  - rewrite dict_set_fresh by assumption. unfold keys.
    rewrite map_app, in_app_iff. simpl. intuition.
Qed.

Lemma wf_dict_set k v d : wf_dict d -> wf_dict (dict_set k v d).
Proof.
  unfold wf_dict. intros Hd.
  destruct (in_dec string_dec k (keys d)) as [Hin|Hn].
  - now rewrite keys_dict_set_in.
  - rewrite dict_set_fresh by assumption. unfold keys in *.
    rewrite map_app. simpl. apply NoDup_app; auto.
    + repeat constructor. simpl. tauto.
    + intros a Ha [<-|[]]. contradiction.
Qed.

Lemma dict_update_cons d k v items :
  dict_update d ((k, v) :: items) = dict_update (dict_set k v d) items.
Proof. reflexivity. Qed.

Lemma dict_update_app d items items' :
  dict_update d (items ++ items') = dict_update (dict_update d items) items'.
Proof. unfold dict_update. apply fold_left_app. Qed.

Lemma wf_dict_update d items : wf_dict d -> wf_dict (dict_update d items).
Proof.
  revert d. induction items as [|[k v] items IH]; intros d Hd; auto.
  rewrite dict_update_cons. apply IH, wf_dict_set, Hd.
Qed.

Lemma wf_dict_of_items items : wf_dict (dict_of_items items).
Proof. apply wf_dict_update. constructor. Qed.

Lemma in_keys_dict_update k d items :
  In k (keys (dict_update d items)) <-> In k (keys d) \/ In k (keys items).
Proof.
  revert d. induction items as [|[a x] items IH]; intros d.
  - simpl. tauto.
  - rewrite dict_update_cons, IH, in_keys_dict_set. simpl. intuition.
Qed.

(** Without a repeated key, updating appends. *)
Lemma dict_update_fresh d items :
  NoDup (keys d ++ keys items) -> dict_update d items = d ++ items.
Proof.
  revert d. induction items as [|[k v] items IH]; intros d Hnd.
  - simpl. now rewrite app_nil_r.
  - rewrite dict_update_cons. simpl in Hnd.
    assert (Hk : ~ In k (keys d)).
    { apply NoDup_remove_2 in Hnd. rewrite in_app_iff in Hnd. tauto. }
    rewrite dict_set_fresh by assumption. rewrite IH.
    + now rewrite <- app_assoc.
    + unfold keys in *. rewrite map_app, <- app_assoc. exact Hnd.
Qed.

Lemma dict_of_items_nodup items :
  NoDup (keys items) -> dict_of_items items = items.
Proof. intros H. unfold dict_of_items. now rewrite dict_update_fresh. Qed.

(** The last item of a key decides its value. *)
Lemma dict_get_update_notin k d items :
  ~ In k (keys items) -> dict_get k (dict_update d items) = dict_get k d.
Proof.
  revert d. induction items as [|[a x] items IH]; intros d Hn; auto.
  rewrite dict_update_cons. simpl in Hn. rewrite IH by tauto.
  apply dict_get_set_neq. intros ->. tauto.
Qed.

Lemma dict_get_update_last k v d before after :
  ~ In k (keys after) ->
  dict_get k (dict_update d (before ++ (k, v) :: after)) = Some v.
Proof.
  intros Hn. rewrite dict_update_app, dict_update_cons.
  rewrite dict_get_update_notin by assumption. apply dict_get_set_eq.
Qed.

Lemma dict_get_in k v d : dict_get k d = Some v -> In (k, v) d.
Proof.
  induction d as [|[a x] d IH]; simpl; [discriminate|].
  destruct (String.eqb a k) eqn:E; auto.
  apply String.eqb_eq in E. intros [= ->]. left. congruence.
Qed.

Lemma in_dict_get k v d : wf_dict d -> In (k, v) d -> dict_get k d = Some v.
Proof.
  unfold wf_dict. induction d as [|[a x] d IH]; simpl; [tauto|].
  intros Hnd [Heq|Hin].
  - inversion Heq; subst. now rewrite String.eqb_refl.
  - inversion Hnd as [|? ? Hna Hnd']; subst.
    destruct (String.eqb a k) eqn:E; auto.
    apply String.eqb_eq in E; subst a. exfalso. apply Hna.
    change (In (fst (k, v)) (map fst d)). now apply in_map.
Qed.

Lemma dict_get_some_iff k d :
  (exists v, dict_get k d = Some v) <-> In k (keys d).
Proof.
  induction d as [|[a x] d IH]; simpl.
  - split; [intros [v Hv]; discriminate | tauto].
  - destruct (String.eqb a k) eqn:E.
    + apply String.eqb_eq in E. split; eauto.
    + apply String.eqb_neq in E. rewrite IH. tauto.
Qed.

Lemma in_dict_set k v k' v' d :
  In (k, v) (dict_set k' v' d) -> (k, v) = (k', v') \/ In (k, v) d.
Proof.
  induction d as [|[a x] d IH]; simpl.
  - intros [H|[]]; auto.
  - destruct (String.eqb a k') eqn:E; simpl.
    + apply String.eqb_eq in E; subst a. intuition.
    + intuition.
Qed.

Lemma in_dict_update k v d items :
  In (k, v) (dict_update d items) -> In (k, v) d \/ In (k, v) items.
Proof.
  revert d. induction items as [|[a x] items IH]; intros d; auto.
  rewrite dict_update_cons. intros H. apply IH in H as [H|H].
  - apply in_dict_set in H as [H|H]; [right; left; congruence| auto].
  - right; right; auto.
Qed.

(** *** Merging a dictionary's items is merging the items it was built from *)

Lemma dict_set_set k v v0 d : dict_set k v (dict_set k v0 d) = dict_set k v d.
Proof.
  induction d as [|[a x] d IH]; simpl.
  - now rewrite String.eqb_refl.
  - destruct (String.eqb a k) eqn:E; simpl; rewrite E; congruence.
Qed.

Lemma dict_set_comm k v k' v' d :
  k <> k' -> In k (keys d) ->
  dict_set k v (dict_set k' v' d) = dict_set k' v' (dict_set k v d).
Proof.
  intros Hne. induction d as [|[a x] d IH]; simpl; [tauto|]. intros Hin.
  destruct (String.eqb a k') eqn:E'; destruct (String.eqb a k) eqn:E;
    simpl; rewrite ?E, ?E'; auto.
  - apply String.eqb_eq in E, E'. congruence.
  - f_equal. apply IH. destruct Hin as [->|]; auto.
    rewrite String.eqb_refl in E. discriminate.
Qed.

Lemma dict_set_update k v d items :
  In k (keys d) -> ~ In k (keys items) ->
  dict_set k v (dict_update d items) = dict_update (dict_set k v d) items.
Proof.
  revert d. induction items as [|[a x] items IH]; intros d Hin Hn; auto.
  simpl in Hn. rewrite !dict_update_cons.
  rewrite IH; [|apply in_keys_dict_set; auto | tauto].
  rewrite dict_set_comm; auto.
Qed.

Lemma dict_update_set d k v e :
  wf_dict e ->
  dict_update d (dict_set k v e) = dict_set k v (dict_update d e).
Proof.
  unfold wf_dict. revert d. induction e as [|[a x] e IH]; intros d Hnd; auto.
  inversion Hnd as [|? ? Hna Hnd']; subst. simpl.
  destruct (String.eqb a k) eqn:E.
  - apply String.eqb_eq in E; subst a. rewrite !dict_update_cons.
    rewrite dict_set_update; auto.
    + now rewrite dict_set_set.
    + apply in_keys_dict_set; auto.
  - rewrite !dict_update_cons. now apply IH.
Qed.

Lemma dict_update_update d e items :
  wf_dict e ->
  dict_update d (dict_update e items) = dict_update (dict_update d e) items.
Proof.
  revert e. induction items as [|[k v] items IH]; intros e He; auto.
  rewrite !dict_update_cons, IH by now apply wf_dict_set.
  now rewrite dict_update_set.
Qed.

Lemma dict_update_dict_of_items d items :
  dict_update d (dict_of_items items) = dict_update d items.
Proof.
  unfold dict_of_items. rewrite dict_update_update by constructor.
  reflexivity.
Qed.

End Facts.

End PyDictFacts.
Import PyDictFacts.

(** ** Induction on documents *)

Section JsonInd.
Variable P : json -> Prop.
Hypothesis Hnull : P JNull.
Hypothesis Hbool : forall b, P (JBool b).
Hypothesis Hnum : forall n, P (JNum n).
Hypothesis Hstr : forall s, P (JStr s).
Hypothesis Harr : forall l, Forall P l -> P (JArr l).
Hypothesis Hobj : forall o, Forall (fun kv => P (snd kv)) o -> P (JObj o).

Lemma json_ind : forall v, P v.
Proof.
  fix IH 1. intros [| b | n | s | l | o].
  - exact Hnull.
  - apply Hbool.
  - apply Hnum.
  - apply Hstr.
  - apply Harr. induction l as [|x l IHl]; constructor; [apply IH | exact IHl].
  - apply Hobj. induction o as [|[k x] o IHo]; constructor;
      [apply IH | exact IHo].
Qed.
End JsonInd.

(** ** flatten_json merges the leaves in traversal order *)

Lemma flatten_json_eq data parent_key sep :
  flatten_json data parent_key sep =
  dict_of_items
    match data with
    | JObj o =>
        extend_fields (fun v key => flatten_json v key sep) parent_key sep o
    | JArr l =>
        extend_elems (fun item key => flatten_json item key sep)
          (fun i => (parent_key ++ sep ++ str i)%string) l 0
    | _ => [(parent_key, data)]
    end.
Proof. destruct data; reflexivity. Qed.

Lemma same_merge_refl items : same_merge items items.
Proof. intros d. reflexivity. Qed.

Lemma same_merge_trans a b c : same_merge a b -> same_merge b c -> same_merge a c.
Proof. intros H1 H2 d. now rewrite H1. Qed.

Lemma same_merge_app a a' b b' :
  same_merge a a' -> same_merge b b' -> same_merge (a ++ b) (a' ++ b').
Proof. intros Ha Hb d. now rewrite !dict_update_app, Ha, Hb. Qed.

Lemma same_merge_dict_of_items items : same_merge (dict_of_items items) items.
Proof. intros d. apply dict_update_dict_of_items. Qed.

Create HintDb merge.
#[local] Hint Resolve same_merge_refl same_merge_app : merge.

Lemma extend_elems_same_merge r r' key_at l :
  Forall (fun item => forall key, same_merge (r item key) (r' item key)) l ->
  forall i, same_merge (extend_elems r key_at l i) (extend_elems r' key_at l i).
Proof.
  induction 1 as [|item l Hitem _ IH]; intros i; simpl; auto with merge.
  apply same_merge_app; auto. unfold elem_items.
  destruct (is_dict item); auto with merge.
Qed.

Lemma extend_fields_same_merge r r' parent_key sep o :
  Forall (fun kv => agree_below r r' (snd kv)) o ->
  same_merge (extend_fields r parent_key sep o) (extend_fields r' parent_key sep o).
Proof.
  induction 1 as [|[k v] o [Hv Hl] _ IH]; simpl; auto with merge.
  apply same_merge_app; auto. simpl in Hv, Hl. unfold field_items.
  destruct v; auto with merge. apply extend_elems_same_merge. now apply Hl.
Qed.

Lemma flatten_json_agrees sep :
  forall data,
    agree_below (fun v key => flatten_json v key sep)
                (fun v key => dict_of_items (leaf_entries v key sep)) data.
Proof.
  assert (Hscalar : forall data key, is_scalar data = true ->
            same_merge (flatten_json data key sep)
                       (dict_of_items (leaf_entries data key sep))).
  { intros data key Hs. destruct data; try discriminate; apply same_merge_refl. }
  induction data as [| b | n | s | l IH | o IH] using json_ind;
    try (split; [intros key; now apply Hscalar | intros l [=]]).
  - split.
    + intros key. rewrite flatten_json_eq. simpl leaf_entries.
      intros d. rewrite !dict_update_dict_of_items. revert d.
      apply same_merge_trans with
        (extend_elems (fun v k => dict_of_items (leaf_entries v k sep))
           (fun i => (key ++ sep ++ str i)%string) l 0).
      * apply extend_elems_same_merge.
        eapply Forall_impl; [|exact IH]. intros item H. apply H.
      * apply extend_elems_same_merge.
        apply Forall_forall. intros item _ k. apply same_merge_dict_of_items.
    + intros l' [= <-]. eapply Forall_impl; [|exact IH]. intros item H. apply H.
  - split; [|intros l [=]].
    intros key. rewrite flatten_json_eq. simpl leaf_entries.
    intros d. rewrite !dict_update_dict_of_items. revert d.
    apply same_merge_trans with
      (extend_fields (fun v k => dict_of_items (leaf_entries v k sep)) key sep o).
    + apply extend_fields_same_merge. exact IH.
    + apply extend_fields_same_merge. apply Forall_forall. intros kv _. split.
      * intros k. apply same_merge_dict_of_items.
      * intros l _. apply Forall_forall. intros item _ k.
        apply same_merge_dict_of_items.
Qed.

(** [flatten_json] is [dict] applied to the leaves: the dictionaries the
    recursive calls build on the way change neither order nor values. *)
Lemma flatten_json_leaf_entries data parent_key sep :
  flatten_json data parent_key sep =
  dict_of_items (leaf_entries data parent_key sep).
Proof.
  destruct (flatten_json_agrees sep data) as [H _].
  specialize (H parent_key []). fold (dict_of_items (flatten_json data parent_key sep)) in H.
  rewrite dict_of_items_nodup in H.
  - rewrite H. unfold dict_of_items at 2. 
    fold (dict_of_items (dict_of_items (leaf_entries data parent_key sep))).
    apply dict_of_items_nodup, wf_dict_of_items.
  - rewrite flatten_json_eq. apply wf_dict_of_items.
Qed.

(** ** Strings *)

Lemma append_assoc (a b c : string) : ((a ++ b) ++ c = a ++ b ++ c)%string.
Proof. induction a as [|x a IH]; simpl; congruence. Qed.

Lemma truthy_append a b : truthy a = true -> truthy (a ++ b) = true.
Proof. destruct a; simpl; [discriminate | reflexivity]. Qed.

Lemma truthy_nonempty a : a <> ""%string -> truthy a = true.
Proof. destruct a; simpl; congruence. Qed.

(** ** Where the entries of a document come from *)

Lemma in_extend_elems r key_at e item l :
  forall j i,
    nth_error l j = Some item ->
    In e (elem_items r (key_at (i + j)) item) ->
    In e (extend_elems r key_at l i).
Proof.
  induction l as [|x l IH]; intros [|j] i Hnth Hin; simpl in *; try discriminate;
    apply in_or_app.
  - injection Hnth as ->. rewrite Nat.add_0_r in Hin. now left.
  - right. apply (IH j (S i)); auto. now rewrite Nat.add_succ_comm.
Qed.

Lemma in_extend_fields r parent_key sep e k v o :
  In (k, v) o ->
  In e (field_items r parent_key sep k v) ->
  In e (extend_fields r parent_key sep o).
Proof.
  induction o as [|[k' v'] o IH]; simpl; [tauto|].
  intros [[= -> ->]|Hin] He; apply in_or_app; auto.
Qed.

Lemma extend_fields_scalars r parent_key sep o :
  Forall (fun kv => is_scalar (snd kv) = true) o ->
  extend_fields r parent_key sep o =
  map (fun kv => (new_key parent_key sep (fst kv), snd kv)) o.
Proof.
  induction 1 as [|[k v] o Hv _ IH]; simpl; auto.
  rewrite IH. simpl in Hv. destruct v; try discriminate; reflexivity.
Qed.

(** The leaf at [p1.p2[i].p3] is among the entries, under the key the
    code builds for it. *)
Lemma leaf_entry_at_path sep data p1 p2 i p3 L :
  at_path data p1 p2 i p3 L -> is_scalar L = true ->
  In (new_key (new_key (new_key "" sep p1) sep p2 ++ sep ++ str i) sep p3, L)
     (leaf_entries data "" sep).
Proof.
  intros (o & o2 & l & o3 & -> & H1 & H2 & H3 & H4) HL. simpl.
  eapply in_extend_fields; [exact H1|]. simpl.
  eapply in_extend_fields; [exact H2|]. simpl.
  eapply in_extend_elems with (j := i) (i := 0); [exact H3|]. simpl.
  unfold elem_items. simpl.
  eapply in_extend_fields; [exact H4|].
  destruct L; try discriminate; simpl; auto.
Qed.

Lemma new_key_path sep p1 p2 i p3 :
  p1 <> ""%string ->
  new_key (new_key (new_key "" sep p1) sep p2 ++ sep ++ str i) sep p3 =
  path_key sep p1 p2 i p3.
Proof.
  intros Hp1. unfold new_key at 3. simpl.
  unfold new_key at 2. rewrite (truthy_nonempty p1 Hp1).
  unfold new_key. rewrite truthy_append by now apply truthy_append, truthy_nonempty.
  unfold path_key. now rewrite !append_assoc.
Qed.

(** ** Path keys (C1) *)

(** C1, as stated, fails: in [colliding_doc] the scalar [1] sits at the
    path [a.b[0].c], and the flattening with the separator [_] binds the
    key [a_b_0_c] to [2], the value of the later field of that name. *)
Lemma flatten_path_key_collision :
  wf_json colliding_doc /\
  at_path colliding_doc "a" "b" 0 "c" (JNum (PyInt 1)) /\
  is_scalar (JNum (PyInt 1)) = true /\
  dict_get (path_key "_" "a" "b" 0 "c") (flatten_json colliding_doc "" "_")
    <> Some (JNum (PyInt 1)).
Proof.
  split; [|split; [|split]].
  - simpl. repeat split; repeat constructor; simpl; intuition discriminate.
  - exists [("a", JObj [("b", JArr [JObj [("c", JNum (PyInt 1))]])]);
            ("a_b_0_c", JNum (PyInt 2))],
           [("b", JArr [JObj [("c", JNum (PyInt 1))]])],
           [JObj [("c", JNum (PyInt 1))]],
           [("c", JNum (PyInt 1))].
    simpl. intuition.
  - reflexivity.
  - vm_compute. discriminate.
Qed.

(** With an empty first segment the key differs as well: line 16 tests
    the prefix for emptiness, so under the field [""] the key of the next
    level starts afresh, [b_0_c] instead of [_b_0_c]. *)
Lemma flatten_empty_first_segment :
  flatten_json (JObj [("", JObj [("b", JArr [JObj [("c", JNum (PyInt 1))]])])])
    "" "_" = [("b_0_c", JNum (PyInt 1))] /\
  path_key "_" "" "b" 0 "c" = "_b_0_c"%string.
Proof. split; reflexivity. Qed.

(** C1, amended: for a scalar leaf [L] at the path [p1.p2[i].p3] with
    [p1] non-empty, and for every separator, the flattening of the
    document has the key [p1 sep p2 sep i sep p3]; that key is bound to
    [L] whenever every leaf whose path gives this key carries the value
    [L], in particular when no two leaf paths give the same key. *)
Theorem flatten_path_key sep data p1 p2 i p3 L :
  at_path data p1 p2 i p3 L ->
  is_scalar L = true ->
  p1 <> ""%string ->
  let key := path_key sep p1 p2 i p3 in
  let flat := flatten_json data "" sep in
  In key (keys flat) /\
  ((forall v, In (key, v) (leaf_entries data "" sep) -> v = L) ->
   dict_get key flat = Some L) /\
  (NoDup (keys (leaf_entries data "" sep)) -> dict_get key flat = Some L).
Proof.
  intros Hpath HL Hp1 key flat.
  pose proof (leaf_entry_at_path sep _ _ _ _ _ _ Hpath HL) as Hin.
  rewrite new_key_path in Hin by assumption. fold key in Hin.
  assert (Hkey : In key (keys flat)).
  { unfold flat. rewrite flatten_json_leaf_entries.
    apply in_keys_dict_update. right.
    change key with (fst (key, L)). now apply in_map. }
  assert (Hsame : (forall v, In (key, v) (leaf_entries data "" sep) -> v = L) ->
                  dict_get key flat = Some L).
  { intros Hall. apply dict_get_some_iff in Hkey as [v Hv]. rewrite Hv.
    f_equal. apply Hall. apply dict_get_in in Hv. unfold flat in Hv.
    rewrite flatten_json_leaf_entries in Hv.
    apply in_dict_update in Hv as [[]|Hv]. exact Hv. }
  repeat split; auto.
  intros Hnd. apply Hsame. intros v Hv.
  pose proof (in_dict_get key v _ Hnd Hv) as E1.
  pose proof (in_dict_get key L _ Hnd Hin) as E2. congruence.
Qed.

Lemma flatten_path_key_witness :
  at_path nested_doc "user" "tags" 1 "name" (JStr "y") /\
  dict_get "user_tags_1_name" (flatten_json nested_doc "" "_") = Some (JStr "y").
Proof.
  assert (Hpath : at_path nested_doc "user" "tags" 1 "name" (JStr "y")).
  { exists [("user", JObj [("tags", JArr [JObj [("name", JStr "x")];
                                           JObj [("name", JStr "y")]])])],
           [("tags", JArr [JObj [("name", JStr "x")]; JObj [("name", JStr "y")]])],
           [JObj [("name", JStr "x")]; JObj [("name", JStr "y")]],
           [("name", JStr "y")].
    simpl. intuition. }
  split; [exact Hpath|].
  apply (flatten_path_key "_" nested_doc "user" "tags" 1 "name" (JStr "y")).
  - exact Hpath.
  - reflexivity.
  - discriminate.
  - vm_compute. repeat constructor; simpl; intuition discriminate.
Defined.

(** ** Collisions (C7) *)

(** C7: when two leaves of the document get the same key, the second
    being the last leaf with that key, the flattening binds the key to the
    value of the second; the result is a dictionary all the same. *)
Theorem flatten_last_write_wins data parent_key sep k v1 v2 before between after :
  leaf_entries data parent_key sep
    = before ++ (k, v1) :: between ++ (k, v2) :: after ->
  ~ In k (keys after) ->
  dict_get k (flatten_json data parent_key sep) = Some v2 /\
  wf_dict (flatten_json data parent_key sep).
Proof.
  intros Hsplit Hlast. rewrite flatten_json_leaf_entries. split.
  - rewrite Hsplit.
    replace (before ++ (k, v1) :: between ++ (k, v2) :: after)
      with ((before ++ (k, v1) :: between) ++ (k, v2) :: after)
      by now rewrite <- app_assoc.
    now apply dict_get_update_last.
  - apply wf_dict_of_items.
Qed.

Lemma flatten_last_write_wins_witness :
  dict_get "a_b_0_c" (flatten_json colliding_doc "" "_") = Some (JNum (PyInt 2)) /\
  wf_dict (flatten_json colliding_doc "" "_").
Proof.
  apply (flatten_last_write_wins colliding_doc "" "_" "a_b_0_c"
           (JNum (PyInt 1)) (JNum (PyInt 2)) [] [] []).
  - reflexivity.
  - simpl. tauto.
Defined.

(** ** Flat objects (C9) *)

(** C9: the flattening of an object whose values are all scalars, with
    an empty prefix and any separator, is the object itself: the same
    keys in the same order with the same values. *)
Theorem flatten_flat_object o sep :
  wf_dict o ->
  Forall (fun kv => is_scalar (snd kv) = true) o ->
  flatten_json (JObj o) "" sep = o.
Proof.
  intros Hwf Hflat. rewrite flatten_json_eq.
  rewrite extend_fields_scalars by assumption.
  replace (map (fun kv => (new_key "" sep (fst kv), snd kv)) o) with o.
  - now apply dict_of_items_nodup.
  - clear. induction o as [|[k v] o IH]; simpl; [reflexivity|].
    now rewrite <- IH.
Qed.

Lemma flatten_flat_object_witness : flatten_json (JObj flat_doc) "" "_" = flat_doc.
Proof.
  apply flatten_flat_object.
  - unfold wf_dict. simpl. repeat constructor; simpl; intuition discriminate.
  - repeat constructor.
Defined.

(** ** Values of the flattened record (C2) *)

(** C2 fails on [list_in_list_doc]: the inner list is an element of a
    list and not a [dict], so line 24 appends it as it is, with the object
    it holds unflattened. *)
Theorem flatten_keeps_list_in_list :
  wf_json list_in_list_doc /\
  flatten_json list_in_list_doc "" "_"
    = [("a_0", JArr [JObj [("b", JNum (PyInt 1))]])] /\
  exists v, dict_get "a_0" (flatten_json list_in_list_doc "" "_") = Some v /\
            is_scalar v = false.
Proof.
  split; [|split].
  - simpl. repeat split; repeat constructor; simpl; tauto.
  - reflexivity.
  - eexists. split; reflexivity.
Qed.

(** Away from that case the values are scalars: every value of the
    flattening of a document with no list directly inside a list is a
    scalar. *)
Lemma leaf_entries_scalar sep :
  forall data, no_list_in_list data ->
  forall parent_key,
    Forall (fun kv => is_scalar (snd kv) = true) (leaf_entries data parent_key sep).
Proof.
  induction data as [| b | n | s | l IH | o IH] using json_ind;
    intros Hdata parent_key; try (repeat constructor).
  - simpl leaf_entries. generalize 0. simpl in Hdata.
    induction IH as [|item l Hitem _ IHl]; intros i; simpl; [constructor|].
    destruct Hdata as (Hnl & Hitem' & Hrest).
    apply Forall_app. split; [|now apply IHl].
    unfold elem_items. destruct item; try discriminate; simpl;
      try (repeat constructor). now apply Hitem.
  - simpl leaf_entries. simpl in Hdata.
    induction IH as [|[k v] o Hv _ IHo]; simpl; [constructor|].
    destruct Hdata as (Hv' & Hrest). simpl in Hv, Hv'.
    apply Forall_app. split; [|now apply IHo].
    destruct v; simpl; try (repeat constructor).
    + apply (Hv Hv' (new_key parent_key sep k)).
    + now apply Hv.
Qed.

Lemma flatten_values_scalar data parent_key sep k v :
  no_list_in_list data ->
  In (k, v) (flatten_json data parent_key sep) ->
  is_scalar v = true.
Proof.
  intros Hdata Hin. rewrite flatten_json_leaf_entries in Hin.
  apply in_dict_update in Hin as [[]|Hin].
  pose proof (leaf_entries_scalar sep data Hdata parent_key) as Hall.
  rewrite Forall_forall in Hall. apply (Hall _ Hin).
Qed.

(** ** A list at the top level (C8) *)

(** C8 fails on the list [[5]] with an empty prefix: line 32 joins
    prefix, separator and index with no test of the prefix, so the key of
    element 0 is [_0]; the key [0] is not in the result. *)
Theorem flatten_top_level_list_key :
  flatten_json (JArr [JNum (PyInt 5)]) "" "_" = [("_0", JNum (PyInt 5))] /\
  dict_get (str 0) (flatten_json (JArr [JNum (PyInt 5)]) "" "_") = None.
Proof. split; reflexivity. Qed.

(** In general the element at index [i] of a top-level list that is not
    a [dict] is a leaf under the key [parent_key sep i], also when
    [parent_key] is empty. *)
Lemma top_level_list_entry l parent_key sep i item :
  nth_error l i = Some item ->
  is_dict item = false ->
  In ((parent_key ++ sep ++ str i)%string, item)
     (leaf_entries (JArr l) parent_key sep).
Proof.
  intros Hnth Hitem. simpl.
  eapply in_extend_elems with (j := i) (i := 0); [exact Hnth|].
  unfold elem_items. rewrite Hitem. simpl. auto.
Qed.

(** ** Columns of a table of records *)

Lemma existsb_eqb_in k l : existsb (String.eqb k) l = true <-> In k l.
Proof.
  rewrite existsb_exists. split.
  - intros (x & Hx & E). apply String.eqb_eq in E. now subst.
  - intros H. exists k. split; auto. apply String.eqb_refl.
Qed.

Lemma fold_add_column ks : forall acc,
  fold_left add_column ks acc = acc ++ first_seen acc ks.
Proof.
  induction ks as [|k ks IH]; intros acc; simpl.
  - now rewrite app_nil_r.
  - unfold add_column at 2. destruct (existsb (String.eqb k) acc); rewrite IH; auto.
    now rewrite <- app_assoc.
Qed.

Lemma union_columns_first_seen records :
  union_columns records = first_seen [] (concat (map keys records)).
Proof. unfold union_columns. now rewrite fold_add_column. Qed.

Lemma in_first_seen k ks : forall seen,
  In k (first_seen seen ks) <-> In k ks /\ ~ In k seen.
Proof.
  induction ks as [|a ks IH]; intros seen; simpl; [tauto|].
  destruct (existsb (String.eqb a) seen) eqn:E.
  - apply existsb_eqb_in in E. rewrite IH. intuition congruence.
  - assert (Ha : ~ In a seen) by (rewrite <- existsb_eqb_in; congruence).
    simpl. rewrite IH, in_app_iff. simpl.
    destruct (string_dec a k) as [->|Hne]; intuition.
Qed.

Lemma NoDup_first_seen ks : forall seen, NoDup (first_seen seen ks).
Proof.
  induction ks as [|a ks IH]; intros seen; simpl; [constructor|].
  destruct (existsb (String.eqb a) seen); auto.
  constructor; auto. rewrite in_first_seen, in_app_iff. simpl. tauto.
Qed.

(** As many columns as there are distinct keys. *)
Lemma length_first_seen ks :
  length (first_seen [] ks) = length (nodup string_dec ks).
Proof.
  apply Nat.le_antisymm; apply NoDup_incl_length;
    auto using NoDup_first_seen, NoDup_nodup; intros k.
  - rewrite in_first_seen, nodup_In. tauto.
  - rewrite in_first_seen, nodup_In. simpl. tauto.
Qed.

Lemma cell_of_missing (record : dict json) column :
  ~ In column (keys record) -> cell_of record column = NaN.
Proof.
  intros Hn. unfold cell_of. destruct (dict_get column record) eqn:E; auto.
  exfalso. apply Hn. apply dict_get_some_iff. eauto.
Qed.

Lemma forallb_is_dict_flattened l : forallb is_dict (map flattened_item l) = true.
Proof.
  induction l as [|item l IH]; simpl; auto. rewrite IH.
  unfold flattened_item. now destruct (is_dict item).
Qed.

Lemma fields_flattened l :
  forallb is_dict l = true ->
  map fields (map flattened_item l) = map (fun item => flatten_json item "" "_") l.
Proof.
  induction l as [|item l IH]; simpl; auto.
  intros [Hitem Hl]%andb_prop. rewrite IH by assumption.
  unfold flattened_item. now rewrite Hitem.
Qed.

(** ** json_to_csv *)

Section Conversion.
Variable env : Externals.

Lemma json_to_csv_try_scalar json_data v f n :
  parse env json_data = Ret v ->
  is_scalar v = true ->
  json_to_csv_try env json_data f n = Ret (DataFrame_of_column "value" [v]).
Proof.
  intros Hparse Hv. unfold json_to_csv_try. rewrite Hparse. simpl.
  destruct v; try discriminate; reflexivity.
Qed.

(** *** An array of objects (C3) *)

(** C3: for an input that parses to a list [l] of objects and with
    [flatten_nested] set, [json_to_csv] returns a table with one row per
    element of [l]; its columns are the keys of the flattened elements
    in the order they are first met, as many as there are distinct keys;
    the row of an element holds its value for each column, and a column
    the element lacks is a missing cell, written as the empty field. *)
Theorem json_to_csv_array_of_objects json_data l normalize_data :
  parse env json_data = Ret (JArr l) ->
  forallb is_dict l = true ->
  let records := map (fun item => flatten_json item "" "_") l in
  let all_keys := concat (map keys records) in
  exists df,
    json_to_csv env json_data true normalize_data = Returned df /\
    len df = length l /\
    length (columns df) = length (nodup string_dec all_keys) /\
    columns df = first_seen [] all_keys /\
    rows df = map (fun r => map (cell_of r) (columns df)) records /\
    forall format r c,
      In r records -> ~ In c (keys r) ->
      cell_of r c = NaN /\ csv_field format (cell_of r c) = ""%string.
Proof.
  intros Hparse Hl records all_keys.
  exists (DataFrame_of_records records). repeat split.
  - unfold json_to_csv, json_to_csv_try. rewrite Hparse. simpl.
    unfold pd_DataFrame. rewrite forallb_is_dict_flattened.
    now rewrite fields_flattened.
  - unfold len. simpl. unfold records. now rewrite !length_map.
  - simpl. rewrite union_columns_first_seen. apply length_first_seen.
  - simpl. apply union_columns_first_seen.
  - now apply cell_of_missing.
  - rewrite cell_of_missing by assumption. reflexivity.
Qed.

(** *** Invalid JSON (C4) *)

(** C4: when the parser rejects the input text with a decoding error,
    [json_to_csv] hands [st.error] the message "Invalid JSON format: "
    followed by the parser's diagnostic and returns no table, whatever
    the flags. *)
Theorem json_to_csv_invalid_json s msg flatten_nested normalize_data :
  json_loads env s = Raise (JSONDecodeError msg) ->
  json_to_csv env (JStr s) flatten_nested normalize_data
    = Shown InvalidJson ("Invalid JSON format: " ++ msg)%string /\
  forall df,
    json_to_csv env (JStr s) flatten_nested normalize_data <> Returned df.
Proof.
  intros Hparse.
  assert (E : json_to_csv env (JStr s) flatten_nested normalize_data
              = Shown InvalidJson ("Invalid JSON format: " ++ msg)%string).
  { unfold json_to_csv, json_to_csv_try. simpl. now rewrite Hparse. }
  split; [exact E|]. intros df. rewrite E. discriminate.
Qed.

(** *** A scalar root (C5, C10) *)

(** C5: for an input that parses to a scalar, [json_to_csv] returns the
    table with the one column [value] and the one row holding that
    scalar. *)
Theorem json_to_csv_scalar_root json_data v flatten_nested normalize_data :
  parse env json_data = Ret v ->
  is_scalar v = true ->
  json_to_csv env json_data flatten_nested normalize_data
    = Returned {| columns := ["value"%string]; rows := [[Val v]] |}.
Proof.
  intros Hparse Hv. unfold json_to_csv.
  now rewrite (json_to_csv_try_scalar _ v).
Qed.

(** C10: for an input that parses to a scalar, the result of
    [json_to_csv] is the same under all four settings of the two flags. *)
Theorem json_to_csv_scalar_root_flags json_data v f n f' n' :
  parse env json_data = Ret v ->
  is_scalar v = true ->
  json_to_csv env json_data f n = json_to_csv env json_data f' n'.
Proof.
  intros Hparse Hv. unfold json_to_csv.
  now rewrite !(json_to_csv_try_scalar _ v).
Qed.

(** *** An object root (C6) *)

(** C6: an input that parses to an object [o] and an input that parses
    to the one-element list [[o]] give the same result under every
    setting of the flags, and that result is a table of exactly one
    row. *)
Theorem json_to_csv_object_root json_data json_data' o flatten_nested normalize_data :
  parse env json_data = Ret (JObj o) ->
  parse env json_data' = Ret (JArr [JObj o]) ->
  json_to_csv env json_data flatten_nested normalize_data
    = json_to_csv env json_data' flatten_nested normalize_data /\
  exists df,
    json_to_csv env json_data flatten_nested normalize_data = Returned df /\
    len df = 1.
Proof.
  intros Hobj Harr. unfold json_to_csv, json_to_csv_try.
  rewrite Hobj, Harr. simpl.
  destruct flatten_nested, normalize_data; simpl;
    (split; [reflexivity | eexists; split; reflexivity]).
Qed.

End Conversion.

Lemma json_to_csv_array_of_objects_witness :
  exists df,
    json_to_csv sample_env (JArr people) true true = Returned df /\
    len df = 2 /\
    columns df = ["id"; "address_city"]%string.
Proof.
  destruct (json_to_csv_array_of_objects sample_env (JArr people) people true)
    as (df & Hdf & Hlen & _ & Hcols & _).
  - reflexivity.
  - reflexivity.
  - exists df. repeat split; assumption.
Defined.

Lemma json_to_csv_invalid_json_witness :
  json_to_csv sample_env (JStr "{") true true
    = Shown InvalidJson
        "Invalid JSON format: Expecting value: line 1 column 1 (char 0)".
Proof.
  apply (json_to_csv_invalid_json sample_env "{"
           "Expecting value: line 1 column 1 (char 0)" true true).
  reflexivity.
Defined.

Lemma json_to_csv_scalar_root_witness :
  json_to_csv sample_env (JStr "42") true true
    = Returned {| columns := ["value"%string]; rows := [[Val (JNum (PyInt 42))]] |}.
Proof.
  apply (json_to_csv_scalar_root sample_env (JStr "42") (JNum (PyInt 42)) true true);
    reflexivity.
Defined.

Lemma json_to_csv_scalar_root_flags_witness :
  json_to_csv sample_env (JStr "null") true true
    = json_to_csv sample_env (JStr "null") false false.
Proof.
  apply (json_to_csv_scalar_root_flags sample_env (JStr "null") JNull);
    reflexivity.
Defined.

Lemma json_to_csv_object_root_witness :
  json_to_csv sample_env (JObj flat_doc) false true
    = json_to_csv sample_env (JArr [JObj flat_doc]) false true.
Proof.
  apply (json_to_csv_object_root sample_env (JObj flat_doc) (JArr [JObj flat_doc])
           flat_doc false true); reflexivity.
Defined.

(** * Further properties of flatten_json *)

(** ** Keys and prefixes *)

Lemma truthy_append_r a b : truthy b = true -> truthy (a ++ b) = true.
Proof. destruct a; simpl; auto. Qed.

Lemma truthy_true_nonempty a : truthy a = true -> a <> ""%string.
Proof. destruct a; simpl; [discriminate | discriminate]. Qed.

Lemma new_key_truthy parent_key sep k :
  truthy parent_key = true ->
  new_key parent_key sep k = (parent_key ++ sep ++ k)%string /\
  truthy (new_key parent_key sep k) = true.
Proof.
  intros H. unfold new_key. rewrite H. split; auto. now apply truthy_append.
Qed.

Lemma append_inj_l (a b c : string) : (a ++ b = a ++ c)%string -> b = c.
Proof. induction a as [|x a IH]; simpl; [auto|]. intros [= H]. auto. Qed.

Lemma append_eqb_l (a b c : string) :
  String.eqb (a ++ b) (a ++ c) = String.eqb b c.
Proof.
  destruct (String.eqb b c) eqn:E.
  - apply String.eqb_eq in E. subst. apply String.eqb_refl.
  - apply String.eqb_neq. apply String.eqb_neq in E.
    intros H. apply E. now apply append_inj_l in H.
Qed.

Lemma str_inj i j : str i = str j -> i = j.
Proof.
  unfold str. intros H.
  apply DecimalNat.Unsigned.to_uint_inj.
  assert (E : Some (Nat.to_uint i) = Some (Nat.to_uint j)).
  { rewrite <- !NilEmpty.usu. now rewrite H. }
  now injection E.
Qed.

Lemma extend_elems_ext r key_at key_at' l :
  (forall i, key_at i = key_at' i) ->
  forall i, extend_elems r key_at l i = extend_elems r key_at' l i.
Proof.
  intros Hext. induction l as [|item l IH]; intros i; simpl; auto.
  now rewrite Hext, IH.
Qed.

Lemma extend_fields_app r parent_key sep o o' :
  extend_fields r parent_key sep (o ++ o') =
  extend_fields r parent_key sep o ++ extend_fields r parent_key sep o'.
Proof.
  induction o as [|[k v] o IH]; simpl; auto. now rewrite IH, app_assoc.
Qed.

Lemma extend_elems_prepend sep pre l :
  Forall (fun item => forall p, truthy p = true ->
            leaf_entries item (pre ++ p) sep
            = map (prepend pre) (leaf_entries item p sep)) l ->
  forall key_at i,
    (forall j, truthy (key_at j) = true) ->
    extend_elems (fun v key => leaf_entries v key sep)
      (fun j => (pre ++ key_at j)%string) l i
    = map (prepend pre)
        (extend_elems (fun v key => leaf_entries v key sep) key_at l i).
Proof.
  induction 1 as [|item l Hitem _ IH]; intros key_at i Hkey; simpl; auto.
  rewrite map_app, IH by assumption. f_equal.
  unfold elem_items. destruct (is_dict item); [now apply Hitem | reflexivity].
Qed.

Lemma leaf_entries_prepend sep pre :
  forall data p, truthy p = true ->
    leaf_entries data (pre ++ p) sep = map (prepend pre) (leaf_entries data p sep).
Proof.
  induction data as [| b | n | s | l IH | o IH] using json_ind;
    intros p Hp; try reflexivity.
  - simpl.
    rewrite <- (extend_elems_prepend sep pre l IH
                  (fun i => (p ++ sep ++ str i)%string) 0)
      by (intros j; now apply truthy_append).
    apply extend_elems_ext. intros i. apply append_assoc.
  - simpl. induction IH as [|[k v] o Hv _ IHo]; simpl; auto.
    rewrite map_app, IHo. f_equal. unfold field_items.
    destruct (new_key_truthy p sep k Hp) as [Ek Hk].
    destruct (new_key_truthy (pre ++ p) sep k (truthy_append_r pre p Hp)) as [Ek' _].
    assert (E : new_key (pre ++ p) sep k = (pre ++ new_key p sep k)%string)
      by (rewrite Ek, Ek'; apply append_assoc).
    rewrite E. simpl in Hv.
    destruct v; try reflexivity.
    + apply (Hv (new_key p sep k) Hk).
    + apply (Hv (new_key p sep k) Hk).
Qed.

Lemma dict_set_prepend pre k v (d : dict json) :
  dict_set (pre ++ k) v (map (prepend pre) d) = map (prepend pre) (dict_set k v d).
Proof.
  induction d as [|[a x] d IH]; simpl; auto.
  unfold prepend at 1. simpl. rewrite append_eqb_l.
  destruct (String.eqb a k); simpl; [reflexivity|]. now rewrite IH.
Qed.

Lemma dict_update_prepend pre items : forall d : dict json,
  dict_update (map (prepend pre) d) (map (prepend pre) items)
  = map (prepend pre) (dict_update d items).
Proof.
  induction items as [|[k v] items IH]; intros d; auto.
  cbn [map]. change (prepend pre (k, v)) with ((pre ++ k)%string, v).
  rewrite !dict_update_cons, dict_set_prepend. apply IH.
Qed.

(** X1: under a non-empty prefix [p], putting [pre] in front of the
    prefix puts [pre] in front of every key and changes nothing else:
    items, order and values stay. This is what the recursive calls at
    lines 18, 22 and 30 rely on. *)
Theorem flatten_json_prepend data pre p sep :
  p <> ""%string ->
  flatten_json data (pre ++ p) sep = map (prepend pre) (flatten_json data p sep).
Proof.
  intros Hp. rewrite !flatten_json_leaf_entries.
  rewrite leaf_entries_prepend by now apply truthy_nonempty.
  unfold dict_of_items. now rewrite <- dict_update_prepend.
Qed.

Lemma flatten_json_prepend_witness :
  flatten_json nested_doc "row_doc" "_"
  = map (prepend "row_") (flatten_json nested_doc "doc" "_").
Proof.
  apply (flatten_json_prepend nested_doc "row_" "doc" "_"). discriminate.
Defined.

Lemma starts_with_refl k : starts_with k k.
Proof. exists ""%string. clear. induction k; simpl; congruence. Qed.

Lemma starts_with_trans a b c : starts_with a b -> starts_with b c -> starts_with a c.
Proof.
  intros [r ->] [r' ->]. exists (r ++ r')%string. apply append_assoc.
Qed.

Lemma starts_with_append a b : starts_with a (a ++ b).
Proof. now exists b. Qed.

Lemma starts_with_new_key parent_key sep k :
  starts_with parent_key (new_key parent_key sep k).
Proof.
  unfold new_key. destruct parent_key; simpl.
  - now exists k.
  - apply (starts_with_append (String a parent_key)).
Qed.

Lemma leaf_keys_start_with sep :
  forall data parent_key,
    Forall (fun kv => starts_with parent_key (fst kv))
      (leaf_entries data parent_key sep).
Proof.
  induction data as [| b | n | s | l IH | o IH] using json_ind;
    intros parent_key;
    try (constructor; [apply starts_with_refl | constructor]).
  - simpl. generalize 0.
    induction IH as [|item l Hitem _ IHl]; intros i; simpl; [constructor|].
    apply Forall_app. split; [|apply IHl].
    unfold elem_items. destruct (is_dict item).
    + eapply Forall_impl; [|apply Hitem]. intros kv H.
      eapply starts_with_trans; [|exact H]. apply starts_with_append.
    + constructor; [apply starts_with_append | constructor].
  - simpl. induction IH as [|[k v] o Hv _ IHo]; simpl; [constructor|].
    apply Forall_app. split; [|apply IHo]. simpl in Hv.
    assert (Hsub : Forall (fun kv => starts_with parent_key (fst kv))
                     (leaf_entries v (new_key parent_key sep k) sep)).
    { eapply Forall_impl; [|apply Hv]. intros kv H.
      eapply starts_with_trans; [|exact H]. apply starts_with_new_key. }
    destruct v; try exact Hsub.
Qed.

Lemma list_leaf_keys_start_with sep l parent_key :
  Forall (fun kv => starts_with (parent_key ++ sep) (fst kv))
    (leaf_entries (JArr l) parent_key sep).
Proof.
  simpl. generalize 0. induction l as [|item l IH]; intros i; simpl; [constructor|].
  apply Forall_app. split; [|apply IH].
  assert (Hkey : starts_with (parent_key ++ sep) (parent_key ++ sep ++ str i)).
  { exists (str i). symmetry. apply append_assoc. }
  unfold elem_items. destruct (is_dict item).
  - eapply Forall_impl; [|apply leaf_keys_start_with]. intros kv H.
    eapply starts_with_trans; [exact Hkey | exact H].
  - constructor; [exact Hkey | constructor].
Qed.

Lemma dict_leaf_keys_start_with sep o parent_key :
  truthy parent_key = true ->
  Forall (fun kv => starts_with (parent_key ++ sep) (fst kv))
    (leaf_entries (JObj o) parent_key sep).
Proof.
  intros Hp. simpl. induction o as [|[k v] o IH]; simpl; [constructor|].
  apply Forall_app. split; [|apply IH].
  assert (Hkey : starts_with (parent_key ++ sep) (new_key parent_key sep k)).
  { destruct (new_key_truthy parent_key sep k Hp) as [-> _].
    exists k. symmetry. apply append_assoc. }
  assert (Hsub : Forall (fun kv => starts_with (parent_key ++ sep) (fst kv))
                   (leaf_entries v (new_key parent_key sep k) sep)).
  { eapply Forall_impl; [|apply leaf_keys_start_with]. intros kv H.
    eapply starts_with_trans; [exact Hkey | exact H]. }
  destruct v; exact Hsub.
Qed.

Lemma in_keys_flatten_json k data parent_key sep :
  In k (keys (flatten_json data parent_key sep)) <->
  In k (keys (leaf_entries data parent_key sep)).
Proof.
  rewrite flatten_json_leaf_entries. unfold dict_of_items.
  rewrite in_keys_dict_update. simpl. tauto.
Qed.

Lemma keys_forall (P : string -> Prop) (items : list (string * json)) k :
  Forall (fun kv => P (fst kv)) items -> In k (keys items) -> P k.
Proof.
  intros Hall Hin. apply in_map_iff in Hin as (kv & <- & Hkv).
  rewrite Forall_forall in Hall. now apply Hall.
Qed.

(** X2: every key of [flatten_json(data, parent_key, sep)] starts with
    [parent_key]; when [data] is a list every key starts with
    [parent_key] followed by [sep], also for an empty [parent_key]. *)
Theorem flatten_keys_start_with_prefix data parent_key sep k :
  In k (keys (flatten_json data parent_key sep)) ->
  starts_with parent_key k /\
  (is_list data = true -> starts_with (parent_key ++ sep) k).
Proof.
  intros Hin. apply in_keys_flatten_json in Hin. split.
  - exact (keys_forall _ _ _ (leaf_keys_start_with sep data parent_key) Hin).
  - destruct data; try discriminate. intros _.
    exact (keys_forall _ _ _ (list_leaf_keys_start_with sep l parent_key) Hin).
Qed.

Lemma flatten_keys_start_with_prefix_witness :
  starts_with "" "_0" /\ starts_with "_" "_0".
Proof.
  assert (H : In "_0"%string (keys (flatten_json (JArr scalar_list) "" "_")))
    by (vm_compute; auto).
  destruct (flatten_keys_start_with_prefix (JArr scalar_list) "" "_" "_0" H)
    as [H1 H2].
  split; [exact H1 | apply H2; reflexivity].
Defined.

(** X3: with a non-empty [parent_key], every key of the flattening of a
    [dict] starts with [parent_key] followed by [sep]. *)
Theorem flatten_dict_keys_start_with_prefix o parent_key sep k :
  parent_key <> ""%string ->
  In k (keys (flatten_json (JObj o) parent_key sep)) ->
  starts_with (parent_key ++ sep) k.
Proof.
  intros Hp Hin. apply in_keys_flatten_json in Hin.
  apply (keys_forall _ _ _
           (dict_leaf_keys_start_with sep o parent_key (truthy_nonempty _ Hp)) Hin).
Qed.

Lemma flatten_dict_keys_start_with_prefix_witness :
  starts_with "row_" "row_name".
Proof.
  apply (flatten_dict_keys_start_with_prefix flat_doc "row" "_" "row_name").
  - discriminate.
  - vm_compute. auto.
Defined.

(** ** Lists without objects *)

Lemma extend_elems_indexed r key_at l :
  Forall (fun item => is_dict item = false) l ->
  forall i, extend_elems r key_at l i = indexed key_at l i.
Proof.
  induction 1 as [|item l Hitem _ IH]; intros i; simpl; auto.
  unfold elem_items. now rewrite Hitem, IH.
Qed.

Lemma keys_indexed key_at l : forall i,
  keys (indexed key_at l i) = map key_at (seq i (length l)).
Proof.
  induction l as [|item l IH]; intros i; simpl; auto. now rewrite <- IH.
Qed.

Lemma length_indexed key_at l : forall i, length (indexed key_at l i) = length l.
Proof. induction l as [|item l IH]; intros i; simpl; auto. Qed.

Lemma NoDup_map_inj {A B} (f : A -> B) (l : list A) :
  (forall a b, f a = f b -> a = b) -> NoDup l -> NoDup (map f l).
Proof.
  intros Hinj. induction 1 as [|a l Ha _ IH]; simpl; constructor; auto.
  intros Hin. apply in_map_iff in Hin as (b & E & Hb).
  apply Hinj in E. now subst.
Qed.

(** X4: a list with no [dict] among its elements is flattened to its
    elements in order, element [i] under the key [parent_key sep i]: no
    element is lost and none is merged with another. *)
Theorem flatten_list_of_non_dicts l parent_key sep :
  Forall (fun item => is_dict item = false) l ->
  flatten_json (JArr l) parent_key sep
  = indexed (fun i => (parent_key ++ sep ++ str i)%string) l 0 /\
  length (flatten_json (JArr l) parent_key sep) = length l.
Proof.
  intros Hl.
  assert (E : flatten_json (JArr l) parent_key sep
              = indexed (fun i => (parent_key ++ sep ++ str i)%string) l 0).
  { rewrite flatten_json_eq, extend_elems_indexed by assumption.
    apply dict_of_items_nodup. rewrite keys_indexed.
    apply NoDup_map_inj; [|apply seq_NoDup].
    intros a b H. now apply append_inj_l, append_inj_l, str_inj in H. }
  split; [exact E|]. rewrite E. apply length_indexed.
Qed.

Lemma flatten_list_of_non_dicts_witness :
  flatten_json (JArr scalar_list) "tags" "_"
  = [("tags_0", JStr "a"); ("tags_1", JNum (PyInt 1)); ("tags_2", JNull)].
Proof.
  apply (flatten_list_of_non_dicts scalar_list "tags" "_").
  repeat constructor.
Defined.

(** ** Empty containers *)

(** X5: a field whose value is an empty [dict] or an empty [list] adds
    no key: the flattening is that of the object without the field. *)
Theorem flatten_drops_empty_field o o' k e parent_key sep :
  e = JObj [] \/ e = JArr [] ->
  flatten_json (JObj (o ++ (k, e) :: o')) parent_key sep
  = flatten_json (JObj (o ++ o')) parent_key sep.
Proof.
  intros He. rewrite !flatten_json_eq. f_equal.
  rewrite !extend_fields_app. f_equal. simpl.
  destruct He as [-> | ->]; reflexivity.
Qed.

Lemma flatten_drops_empty_field_witness :
  flatten_json (JObj ([("id", JNum (PyInt 1))] ++ ("tags", JArr []) :: [])) "" "_"
  = flatten_json (JObj ([("id", JNum (PyInt 1))] ++ [])) "" "_".
Proof.
  apply (flatten_drops_empty_field [("id", JNum (PyInt 1))] [] "tags" (JArr []) "" "_").
  now right.
Defined.

(** ** Order of the keys, and documents without collisions *)

Lemma keys_dict_update (items : list (string * json)) : forall d : dict json,
  keys (dict_update d items) = keys d ++ first_seen (keys d) (keys items).
Proof.
  induction items as [|[k v] items IH]; intros d.
  - simpl. now rewrite app_nil_r.
  - rewrite dict_update_cons, IH. simpl.
    destruct (existsb (String.eqb k) (keys d)) eqn:E.
    + apply existsb_eqb_in in E. now rewrite keys_dict_set_in.
    + assert (Hk : ~ In k (keys d)) by (rewrite <- existsb_eqb_in; congruence).
      rewrite dict_set_fresh by assumption. unfold keys at 1 2.
      rewrite map_app. simpl. now rewrite <- app_assoc.
Qed.

(** X6: the keys of the flattening are the path keys of the leaves in
    the order of the traversal, each at the place where it is first met. *)
Theorem flatten_keys_order data parent_key sep :
  keys (flatten_json data parent_key sep)
  = first_seen [] (keys (leaf_entries data parent_key sep)).
Proof.
  rewrite flatten_json_leaf_entries. unfold dict_of_items.
  now rewrite keys_dict_update.
Qed.

(** X7: when no two leaves get the same key, the flattening is the list
    of the leaves itself: each leaf once, under its path key, in the
    order of the traversal. *)
Theorem flatten_without_collision data parent_key sep :
  NoDup (keys (leaf_entries data parent_key sep)) ->
  flatten_json data parent_key sep = leaf_entries data parent_key sep.
Proof.
  intros Hnd. rewrite flatten_json_leaf_entries. now apply dict_of_items_nodup.
Qed.

Lemma flatten_without_collision_witness :
  flatten_json nested_doc "" "_" = leaf_entries nested_doc "" "_".
Proof.
  apply flatten_without_collision.
  vm_compute. repeat constructor; simpl; intuition discriminate.
Defined.

(** ** Flattening twice *)

Lemma flatten_json_flat o sep :
  wf_dict o ->
  Forall (fun kv => is_scalar (snd kv) = true) o ->
  flatten_json (JObj o) "" sep = o.
Proof.
  intros Hwf Hflat. rewrite flatten_json_eq.
  rewrite extend_fields_scalars by assumption.
  replace (map (fun kv => (new_key "" sep (fst kv), snd kv)) o) with o.
  - now apply dict_of_items_nodup.
  - clear. induction o as [|[k v] o IH]; simpl; [reflexivity|].
    now rewrite <- IH.
Qed.

Lemma wf_flatten_json data parent_key sep :
  wf_dict (flatten_json data parent_key sep).
Proof. rewrite flatten_json_eq. apply wf_dict_of_items. Qed.

(** X8: for a document with no list directly inside a list, the
    flattened record is flat: flattening it again, as an object and with
    any separator, returns it unchanged. *)
Theorem flatten_json_idempotent data parent_key sep sep' :
  no_list_in_list data ->
  flatten_json (JObj (flatten_json data parent_key sep)) "" sep'
  = flatten_json data parent_key sep.
Proof.
  intros Hdata. apply flatten_json_flat.
  - apply wf_flatten_json.
  - apply Forall_forall. intros [k v] Hin. simpl.
    now apply (flatten_values_scalar data parent_key sep k v).
Qed.

Lemma flatten_json_idempotent_witness :
  flatten_json (JObj (flatten_json nested_doc "" "_")) "" "."
  = flatten_json nested_doc "" "_".
Proof.
  apply (flatten_json_idempotent nested_doc "" "_" ".").
  simpl. tauto.
Defined.

(** * Further properties of json_to_csv *)

Lemma first_seen_nodup ks : forall seen,
  NoDup ks -> (forall k, In k ks -> ~ In k seen) -> first_seen seen ks = ks.
Proof.
  induction ks as [|k ks IH]; intros seen Hnd Hdisj; simpl; auto.
  inversion Hnd as [|? ? Hk Hnd']; subst.
  destruct (existsb (String.eqb k) seen) eqn:E.
  - apply existsb_eqb_in in E. exfalso. apply (Hdisj k); simpl; auto.
  - f_equal. apply IH; auto. intros a Ha Hin.
    apply in_app_iff in Hin as [Hin|[<-|[]]].
    + apply (Hdisj a); simpl; auto.
    + contradiction.
Qed.

Lemma union_columns_single (r : dict json) : wf_dict r -> union_columns [r] = keys r.
Proof.
  intros Hwf. rewrite union_columns_first_seen. simpl. rewrite app_nil_r.
  apply first_seen_nodup; auto.
Qed.

Lemma cells_of_own_keys (r : dict json) :
  wf_dict r -> map (cell_of r) (keys r) = map (fun kv => Val (snd kv)) r.
Proof.
  intros Hwf. unfold keys. rewrite map_map. apply map_ext_in.
  intros [k v] Hin. unfold cell_of. simpl.
  now rewrite (in_dict_get k v r Hwf Hin).
Qed.

Lemma fields_flattened_item item : fields (flattened_item item) = item_record item.
Proof. unfold flattened_item, item_record. now destruct (is_dict item). Qed.

Lemma wf_item_record item : wf_dict (item_record item).
Proof.
  unfold item_record. destruct (is_dict item); [apply wf_flatten_json|].
  unfold wf_dict. simpl. repeat constructor. simpl. tauto.
Qed.

Lemma cell_of_value item c :
  cell_of [("value"%string, item)] c
  = if String.eqb "value" c then Val item else NaN.
Proof. unfold cell_of, dict_get. destruct (String.eqb "value" c); reflexivity. Qed.

Section MoreConversion.
Variable env : Externals.

Lemma json_to_csv_flatten_list json_data l normalize_data :
  parse env json_data = Ret (JArr l) ->
  json_to_csv env json_data true normalize_data
  = Returned (DataFrame_of_records (map item_record l)).
Proof.
  intros Hparse. unfold json_to_csv, json_to_csv_try. rewrite Hparse. simpl.
  unfold pd_DataFrame. rewrite forallb_is_dict_flattened, map_map.
  now rewrite (map_ext _ _ fields_flattened_item).
Qed.


(** X10: in an array flattened by [json_to_csv], an element that is not
    a [dict] gets the column [value]; its row holds the element there
    and a missing cell in every other column. *)
Theorem json_to_csv_non_dict_element json_data l j item normalize_data :
  parse env json_data = Ret (JArr l) ->
  nth_error l j = Some item ->
  is_dict item = false ->
  exists df,
    json_to_csv env json_data true normalize_data = Returned df /\
    In "value"%string (columns df) /\
    nth_error (rows df) j
    = Some (map (fun c => if String.eqb "value" c then Val item else NaN)
              (columns df)).
Proof.
  intros Hparse Hnth Hitem.
  rewrite (json_to_csv_flatten_list _ l) by assumption.
  eexists. split; [reflexivity|]. split.
  - simpl. rewrite union_columns_first_seen. apply in_first_seen. split; [|tauto].
    apply in_concat. exists (keys (item_record item)). split.
    + apply in_map, in_map. eapply nth_error_In, Hnth.
    + unfold item_record. rewrite Hitem. simpl. auto.
  - unfold DataFrame_of_records. cbn [rows columns].
    rewrite nth_error_map, nth_error_map, Hnth. cbn [option_map]. f_equal.
    apply map_ext. intros c. unfold item_record. rewrite Hitem.
    apply cell_of_value.
Qed.

(** X11: a non-empty array with no [dict] among its elements becomes the
    table with the single column [value] and one row per element, the
    element as its only cell. *)
Theorem json_to_csv_list_of_non_dicts json_data l normalize_data :
  parse env json_data = Ret (JArr l) ->
  l <> [] ->
  Forall (fun item => is_dict item = false) l ->
  json_to_csv env json_data true normalize_data
  = Returned {| columns := ["value"%string];
                rows := map (fun item => [Val item]) l |}.
Proof.
  intros Hparse Hne Hl. rewrite (json_to_csv_flatten_list _ l) by assumption.
  assert (Erec : map item_record l = map (fun item => [("value"%string, item)]) l).
  { apply map_ext_in. intros item Hin. rewrite Forall_forall in Hl.
    unfold item_record. now rewrite (Hl item Hin). }
  rewrite Erec. unfold DataFrame_of_records.
  assert (Ecols : union_columns (map (fun item => [("value"%string, item)]) l)
                  = ["value"%string]).
  { rewrite union_columns_first_seen. destruct l as [|x l]; [congruence|].
    simpl. f_equal. clear. induction l as [|y l IH]; simpl; auto. }
  rewrite Ecols. do 2 f_equal. rewrite map_map. reflexivity.
Qed.

(** X12: for an object root with [flatten_nested] set, the columns are
    the keys of the flattened object in their order and the single row
    holds its values: no cell is missing. *)
Theorem json_to_csv_object_columns json_data o normalize_data :
  parse env json_data = Ret (JObj o) ->
  let flat := flatten_json (JObj o) "" "_" in
  json_to_csv env json_data true normalize_data
  = Returned {| columns := keys flat;
                rows := [map (fun kv => Val (snd kv)) flat] |}.
Proof.
  intros Hparse flat. unfold json_to_csv, json_to_csv_try. rewrite Hparse.
  cbn [bind]. fold flat. unfold pd_DataFrame, DataFrame_of_records.
  cbn [forallb is_dict andb map fields].
  rewrite union_columns_single by apply wf_flatten_json.
  now rewrite cells_of_own_keys by apply wf_flatten_json.
Qed.

(** X13: with [flatten_nested] set, [normalize_data] has no effect on
    the result, for any input. *)
Theorem json_to_csv_flatten_ignores_normalize json_data n n' :
  json_to_csv env json_data true n = json_to_csv env json_data true n'.
Proof.
  unfold json_to_csv, json_to_csv_try.
  destruct (parse env json_data) as [data|e]; [|reflexivity].
  destruct data; reflexivity.
Qed.

Lemma normalise_json_flat o :
  Forall (fun kv => is_scalar (snd kv) = true) o ->
  normalise_json (JObj o) "" = o.
Proof.
  simpl. induction 1 as [|[k v] o Hv _ IH]; simpl; auto.
  rewrite IH. simpl in Hv. destruct v; try discriminate; reflexivity.
Qed.

Lemma flat_records_are_dicts l :
  Forall flat_record l -> forallb is_dict l = true.
Proof.
  induction 1 as [|v l (o & -> & _) _ IH]; simpl; auto.
Qed.

(** X14: on an array of flat records (objects with scalar values) the
    three modes agree: flattening, normalizing and the plain table give
    the same result, the table of the records themselves. *)
Theorem json_to_csv_flat_records json_data l flatten_nested normalize_data :
  parse env json_data = Ret (JArr l) ->
  Forall flat_record l ->
  json_to_csv env json_data flatten_nested normalize_data
  = Returned (DataFrame_of_records (map fields l)).
Proof.
  intros Hparse Hl. pose proof (flat_records_are_dicts l Hl) as Hdicts.
  destruct flatten_nested.
  - rewrite (json_to_csv_flatten_list _ l) by assumption. do 2 f_equal.
    apply map_ext_in. intros v Hin. rewrite Forall_forall in Hl.
    destruct (Hl v Hin) as (o & -> & Hwf & Hflat).
    unfold item_record. simpl is_dict. cbv iota. simpl fields.
    now apply flatten_json_flat.
  - unfold json_to_csv, json_to_csv_try. rewrite Hparse. simpl.
    destruct normalize_data.
    + unfold pd_json_normalize. rewrite Hdicts. do 2 f_equal.
      apply map_ext_in. intros v Hin. rewrite Forall_forall in Hl.
      destruct (Hl v Hin) as (o & -> & Hwf & Hflat).
      rewrite normalise_json_flat by assumption. simpl fields.
      now apply dict_of_items_nodup.
    + unfold pd_DataFrame. now rewrite Hdicts.
Qed.

(** X15: when [json.loads] fails with an exception that is not a
    decoding error, the second [except] clause reports it: the text
    "Error converting JSON to CSV: " followed by the message goes to
    [st.error], and no table is returned. *)
Theorem json_to_csv_other_exception s msg flatten_nested normalize_data :
  json_loads env s = Raise (OtherException msg) ->
  json_to_csv env (JStr s) flatten_nested normalize_data
  = Shown ConversionError ("Error converting JSON to CSV: " ++ msg)%string.
Proof.
  intros Hloads. unfold json_to_csv, json_to_csv_try. simpl. now rewrite Hloads.
Qed.

End MoreConversion.


Lemma json_to_csv_non_dict_element_witness :
  exists df,
    json_to_csv sample_env (JArr mixed_list) true true = Returned df /\
    nth_error (rows df) 1
    = Some (map (fun c => if String.eqb "value" c then Val (JStr "x") else NaN)
              (columns df)).
Proof.
  destruct (json_to_csv_non_dict_element sample_env (JArr mixed_list)
              mixed_list 1 (JStr "x") true) as (df & Hdf & _ & Hrow);
    try reflexivity.
  exists df. split; assumption.
Defined.

Lemma json_to_csv_list_of_non_dicts_witness :
  json_to_csv sample_env (JArr scalar_list) true true
  = Returned {| columns := ["value"%string];
                rows := [[Val (JStr "a")]; [Val (JNum (PyInt 1))]; [Val JNull]] |}.
Proof.
  apply (json_to_csv_list_of_non_dicts sample_env (JArr scalar_list) scalar_list true).
  - reflexivity.
  - discriminate.
  - repeat constructor.
Defined.

Lemma json_to_csv_object_columns_witness :
  json_to_csv sample_env (JObj flat_doc) true true
  = Returned {| columns := ["name"; "age"; "city"]%string;
                rows := [[Val (JStr "John"); Val (JNum (PyInt 30));
                          Val (JStr "New York")]] |}.
Proof.
  apply (json_to_csv_object_columns sample_env (JObj flat_doc) flat_doc true).
  reflexivity.
Defined.

Lemma json_to_csv_flat_records_witness :
  json_to_csv sample_env (JArr [JObj flat_doc]) false true
  = Returned (DataFrame_of_records [flat_doc]).
Proof.
  apply (json_to_csv_flat_records sample_env (JArr [JObj flat_doc])
           [JObj flat_doc] false true).
  - reflexivity.
  - repeat constructor. exists flat_doc. split; [reflexivity|]. split.
    + unfold wf_dict. simpl. repeat constructor; simpl; intuition discriminate.
    + repeat constructor.
Defined.

Lemma json_to_csv_other_exception_witness :
  json_to_csv failing_env (JStr "[[[[") true true
  = Shown ConversionError
      "Error converting JSON to CSV: maximum recursion depth exceeded".
Proof.
  apply (json_to_csv_other_exception failing_env "[[[["
           "maximum recursion depth exceeded" true true).
  reflexivity.
Defined.

(** * main: input and preview *)

(** X16: after lines 163-196 the session holds [json_input], whatever
    it held before and whether or not "Load Example Data" was pressed;
    the converter is then run on [json_input] exactly when it is
    non-empty. The example text never reaches the converter. *)
Theorem main_converts_json_input button example_text json_input session :
  load_input button example_text json_input session = Ret (Some json_input) /\
  (session' <- load_input button example_text json_input session ;;
   conversion_input json_input session')
  = Ret (if truthy json_input then Some json_input else None).
Proof.
  assert (E : load_input button example_text json_input session
              = Ret (Some json_input)).
  { unfold load_input.
    destruct button, session as [text|]; cbn [session_json_input bind];
      try (destruct (String.eqb _ json_input) eqn:Heq; cbn [negb];
           [apply String.eqb_eq in Heq; now subst | reflexivity]). }
  split; [exact E|]. rewrite E. cbn [bind]. unfold conversion_input.
  cbn [session_json_input bind]. unfold str_or.
  destruct (truthy json_input) eqn:Ht; rewrite ?Ht; reflexivity.
Qed.





(** * Failures and items: what never happens *)



(** X19: every item of the flattened record is a leaf of the document
    under its path key: [flatten_json] invents neither keys nor values. *)
Theorem flatten_items_are_leaves data parent_key sep k v :
  In (k, v) (flatten_json data parent_key sep) ->
  In (k, v) (leaf_entries data parent_key sep).
Proof.
  intros Hin. rewrite flatten_json_leaf_entries in Hin.
  apply in_dict_update in Hin as [[]|Hin]. exact Hin.
Qed.

Lemma flatten_items_are_leaves_witness :
  In ("a_b_0_c"%string, JNum (PyInt 2)) (leaf_entries colliding_doc "" "_").
Proof.
  apply (flatten_items_are_leaves colliding_doc "" "_" "a_b_0_c" (JNum (PyInt 2))).
  vm_compute. auto.
Defined.
